(** * OptionalValue: a shallow embedding of [common.d.ts]

    The TypeScript class [OptionalValue<T>] wraps one field, [value], and
    offers three static factories and six instance methods.  The embedding
    keeps what the JavaScript runtime does with them:

    - a run-time value is [null], [undefined], or a proper value of [T];
    - [throw] aborts the computation with the thrown [Error];
    - [new OptionalValue(..)] allocates an object with an identity of its own;
    - a callback passed by the caller is called through [invoke], which
      records the call and its arguments, so that "called exactly once" and
      "never called" are statements about the recorded calls. *)

From Stdlib Require Import String List Bool Arith Lia.
Import ListNotations.

(** ** Run-time values and errors *)

(** A value of static type [T | null | undefined]. *)
Inductive js (T : Type) : Type :=
| null
| undefined
| val (x : T).
Arguments null {T}.
Arguments undefined {T}.
Arguments val {T} x.

(** [v === null] and [v === undefined]. *)
Definition is_null {T} (v : js T) : bool :=
  match v with null => true | _ => false end.

Definition is_undefined {T} (v : js T) : bool :=
  match v with undefined => true | _ => false end.

(** The JavaScript [Error] object: its [name] and its [message]. *)
Record Error : Type := mkError { name : string; message : string }.

(** [new Error(msg)]. *)
Definition new_Error (msg : string) : Error :=
  {| name := "Error"%string; message := msg |}.

(** The result of running a piece of code: it returns or it throws. *)
Inductive Outcome (A : Type) : Type :=
| Return (a : A)
| Throw (e : Error).
Arguments Return {A} a.
Arguments Throw {A} e.

Section OptionalValue.

(** [T] is the type parameter of the class, [S] the state of the caller's
    program that its callbacks read and write. *)
Context {T S : Type}.

(** One recorded call of a callback: which one, and with what arguments. *)
Record Call : Type := mkCall { callee : nat; args : list (js T) }.

(** What a computation can see and change: the allocator of object
    identities, the calls made so far, and the caller's own state. *)
Record World : Type := mkWorld {
  next_id : nat;
  calls : list Call;
  user : S
}.

Definition M (A : Type) : Type := World -> Outcome A * World.

Definition ret {A} (a : A) : M A := fun w => (Return a, w).

Definition throw {A} (e : Error) : M A := fun w => (Throw e, w).

Definition bind {A B} (m : M A) (k : A -> M B) : M B :=
  fun w =>
    match m w with
    | (Return a, w') => k a w'
    | (Throw e, w') => (Throw e, w')
    end.

(** A function value supplied by the caller.  Its body runs on the
    caller's state and may itself throw. *)
Record Callback (A B : Type) : Type := mkCallback {
  cb_id : nat;
  cb_body : A -> S -> Outcome B * S
}.
#[local] Arguments cb_id {A B} c.
#[local] Arguments cb_body {A B} c _ _.

(** The call [f(a)]; [shown] is the argument list as the record keeps it. *)
Definition invoke {A B} (f : Callback A B) (shown : list (js T)) (a : A)
  : M B :=
  fun w =>
    let (r, s') := cb_body f a (user w) in
    (r, {| next_id := next_id w;
           calls := calls w ++ [mkCall (cb_id f) shown];
           user := s' |}).

(** ** The class *)

(** An instance: the private readonly field [value], and the identity the
    object got when it was allocated. *)
Record OptionalValue : Type := mkOptionalValue {
  oid : nat;
  value : js T
}.

(** [private constructor(value) { this.value = value; }] behind [new]. *)
Definition constructor (v : js T) : M OptionalValue :=
  fun w =>
    (Return {| oid := next_id w; value := v |},
     {| next_id := Datatypes.S (next_id w);
        calls := calls w;
        user := user w |}).

Notation "x <- m ;; k" := (bind m (fun x => k))
  (at level 61, m at next level, right associativity).

(** [public static of<T>(value: T)] *)
Definition of_ (v : js T) : M OptionalValue :=
  if is_null v || is_undefined v
  then throw (new_Error "Value cannot be null or undefined"%string)
  else constructor v.

(** [public static ofNullable<T>(value: T | null | undefined)] *)
Definition ofNullable (v : js T) : M OptionalValue :=
  constructor v.

(** [public static empty<T>()] *)
Definition empty : M OptionalValue :=
  constructor null.

(** [public get()] *)
Definition get (this : OptionalValue) : M (js T) :=
  ret (value this).

(** [public isPresent()] *)
Definition isPresent (this : OptionalValue) : M bool :=
  ret (negb (is_null (value this)) && negb (is_undefined (value this))).

(** [public ifPresent(consumer)]; the cast [as T] leaves no trace at run
    time, and what the consumer returns is dropped. *)
Definition ifPresent (this : OptionalValue)
    (consumer : Callback (js T) unit) : M unit :=
  b <- isPresent this ;;
  if b : bool
  then _ <- invoke consumer [value this] (value this) ;; ret tt
  else ret tt.

(** [public orElse(other)] *)
Definition orElse (this : OptionalValue) (other : js T) : M (js T) :=
  b <- isPresent this ;;
  if b : bool then ret (value this) else ret other.

(** [public orElseGet(supplier)] *)
Definition orElseGet (this : OptionalValue)
    (supplier : Callback unit (js T)) : M (js T) :=
  b <- isPresent this ;;
  if b : bool then ret (value this) else invoke supplier [] tt.

(** [public orElseThrow(error)] *)
Definition orElseThrow (this : OptionalValue)
    (error : Callback unit Error) : M (js T) :=
  b <- isPresent this ;;
  if b : bool
  then ret (value this)
  else e <- invoke error [] tt ;; throw e.

(** ** Vocabulary of the specification *)

(** A value is absent when it is [null] or [undefined]. *)
Definition absent (v : js T) : bool :=
  is_null v || is_undefined v.

(** The error [of] raises on an absent argument, the specification's
    [InvalidArgument]. *)
Definition InvalidArgument : Error :=
  new_Error "Value cannot be null or undefined"%string.

(** What [get] is documented to return when no value is present
    ("Returns the value if present, otherwise null"). *)
Definition absence_marker : js T := null.

(** The object [o] exists in world [w]: it was allocated before. *)
Definition allocated (w : World) (o : OptionalValue) : bool :=
  oid o <? next_id w.

(** [m] returns from [w] (it does not throw). *)
Definition returns {A} (m : M A) (w : World) : Prop :=
  exists a w', m w = (Return a, w').

(** [m] throws from [w]. *)
Definition throws {A} (m : M A) (w : World) : Prop :=
  exists e w', m w = (Throw e, w').

(** The world after one more recorded call of [f] that left the caller's
    state as [s']. *)
Definition called_once {A B} (f : Callback A B) (shown : list (js T))
    (s' : S) (w : World) : World :=
  {| next_id := next_id w;
     calls := calls w ++ [mkCall (cb_id f) shown];
     user := s' |}.

(** The callback's body returns on every argument and state. *)
Definition callback_total {A B} (f : Callback A B) : Prop :=
  forall a s, exists b s', cb_body f a s = (Return b, s').

(** How often the callback named [n] appears in a list of calls. *)
Definition times_called (n : nat) (cs : list Call) : nat :=
  length (filter (fun c => callee c =? n) cs).

End OptionalValue.

Arguments Call T : clear implicits.
Arguments World T S : clear implicits.
Arguments M T S A : clear implicits.
Arguments Callback S A B : clear implicits.
Arguments OptionalValue T : clear implicits.
Arguments cb_id {S A B} c.
Arguments cb_body {S A B} c _ _.

(** ** Sample values: numbers wrapped, a caller that counts *)

Module Sample.

(** A world in which nothing has happened yet. *)
Definition w0 : World nat nat :=
  {| next_id := 0; calls := []; user := 0 |}.

Definition five : OptionalValue nat := {| oid := 0; value := val 5 |}.

Definition nothing : OptionalValue nat := {| oid := 1; value := null |}.

Definition undef : OptionalValue nat := {| oid := 2; value := undefined |}.

(** [() => { n++; return 42; }] *)
Definition supplier42 : Callback nat unit (js nat) :=
  {| cb_id := 1; cb_body := fun _ s => (Return (val 42), Datatypes.S s) |}.

(** [() => new Error("missing")] *)
Definition missing : Callback nat unit Error :=
  {| cb_id := 2; cb_body := fun _ s => (Return (new_Error "missing"), s) |}.

(** [(x) => { n += x; }] *)
Definition add_to_state : Callback nat (js nat) unit :=
  {| cb_id := 3;
     cb_body := fun v s =>
       (Return tt, match v with val x => s + x | _ => s end) |}.

(** [() => 7] *)
Definition seven : Callback nat unit (js nat) :=
  {| cb_id := 4; cb_body := fun _ s => (Return (val 7), s) |}.

(** [() => { n++; throw new Error("no fallback"); }] *)
Definition no_fallback : Callback nat unit (js nat) :=
  {| cb_id := 5;
     cb_body := fun _ s => (Throw (new_Error "no fallback"), Datatypes.S s) |}.

(** [(x) => { n = x; throw new Error("rejected"); }] *)
Definition reject : Callback nat (js nat) unit :=
  {| cb_id := 6;
     cb_body := fun v s =>
       (Throw (new_Error "rejected"),
        match v with val x => x | _ => s end) |}.

(** [() => { throw new Error("factory broke"); }] *)
Definition broken_factory : Callback nat unit Error :=
  {| cb_id := 7;
     cb_body := fun _ s => (Throw (new_Error "factory broke"), s) |}.

(** [(x) => { if (x == null) throw new Error("unreachable"); n += x; }],
    under the name of [add_to_state]. *)
Definition add_or_throw : Callback nat (js nat) unit :=
  {| cb_id := 3;
     cb_body := fun v s =>
       match v with
       | val x => (Return tt, s + x)
       | _ => (Throw (new_Error "unreachable"), s)
       end |}.

(** A world with one object allocated, one call recorded. *)
Definition w1 : World nat nat :=
  {| next_id := 1; calls := [mkCall 3 [val 5]]; user := 5 |}.

End Sample.

Section Facts.

Context {T S : Type}.
Implicit Types (v other : js T) (o this : OptionalValue T) (w : World T S).

(** ** Basic facts *)

Lemma isPresent_absent o w :
  isPresent o w = (Return (negb (absent (value o))), w).
Proof.
  unfold isPresent, ret, absent.
  now rewrite negb_orb.
Qed.

Lemma allocated_constructor v w :
  exists o w',
    constructor v w = (Return o, w')
    /\ value o = v
    /\ allocated w o = false
    /\ allocated w' o = true
    /\ calls w' = calls w
    /\ user w' = user w.
Proof.
  eexists; eexists; split; [reflexivity |].
  unfold allocated; cbn [oid value next_id calls user].
  repeat split.
  - apply Nat.ltb_ge; lia.
  - apply Nat.ltb_lt; lia.
Qed.

Lemma times_called_app (n : nat) (cs ds : list (Call T)) :
  times_called n (cs ++ ds) = times_called n cs + times_called n ds.
Proof.
  unfold times_called.
  now rewrite filter_app, length_app.
Qed.

Lemma times_called_self (n : nat) (shown : list (js T)) :
  times_called n [mkCall n shown] = 1.
Proof.
  unfold times_called; cbn.
  now rewrite Nat.eqb_refl.
Qed.

End Facts.

(** ** The factories *)

Section Factories.

Context {T S : Type}.
Implicit Types (v : js T) (o : OptionalValue T) (w : World T S).

(** C1. [of(value)] throws exactly when [value] is [null] or [undefined],
    and what it throws is the InvalidArgument error, before anything is
    allocated or called.  On every other value it returns an instance
    that did not exist before, on which [isPresent()] answers [true] and
    [get()] answers the value given. *)
Theorem of_spec v w :
  (absent v = true -> of_ v w = (Throw InvalidArgument, w))
  /\ (throws (of_ v) w -> absent v = true)
  /\ (absent v = false ->
      exists o w',
        of_ v w = (Return o, w')
        /\ allocated w o = false
        /\ allocated w' o = true
        /\ isPresent o w' = (Return true, w')
        /\ get o w' = (Return v, w')).
Proof.
  unfold of_; fold (absent v).
  destruct (absent v) eqn:Hv; repeat split; try discriminate.
  - intros (e & w' & H).
    destruct (allocated_constructor v w) as (o & w1 & Hk & _).
    rewrite Hk in H; discriminate.
  - intros _.
    destruct (allocated_constructor v w)
      as (o & w' & Hk & Hval & Hold & Hnew & _).
    exists o, w'; repeat split; try assumption.
    + rewrite isPresent_absent, Hval, Hv; reflexivity.
    + unfold get, ret; now rewrite Hval.
Qed.

(** C2. [ofNullable(v)] returns on every [v], and the instance it
    returns, a new one, answers [isPresent()] with "[v] is not absent". *)
Theorem ofNullable_spec v w :
  exists o w',
    ofNullable v w = (Return o, w')
    /\ allocated w o = false
    /\ allocated w' o = true
    /\ isPresent o w' = (Return (negb (absent v)), w').
Proof.
  destruct (allocated_constructor v w)
    as (o & w' & Hk & Hval & Hold & Hnew & _).
  exists o, w'; repeat split; try assumption.
  now rewrite isPresent_absent, Hval.
Qed.

(** C3. [empty()] returns, the instance is a new one, [isPresent()] on it
    answers [false] and [get()] answers the absence marker. *)
Theorem empty_spec w :
  exists o w',
    empty w = (Return o, w')
    /\ allocated w o = false
    /\ allocated w' o = true
    /\ isPresent o w' = (Return false, w')
    /\ get o w' = (Return absence_marker, w').
Proof.
  destruct (allocated_constructor (@null T) w)
    as (o & w' & Hk & Hval & Hold & Hnew & _).
  exists o, w'; repeat split; try assumption.
  - now rewrite isPresent_absent, Hval.
  - unfold get, ret, absence_marker; now rewrite Hval.
Qed.

(** C4, where the code departs from it.  [ofNullable(undefined)] stores
    [undefined] as it comes, so the instance is absent and [get()] on it
    answers [undefined]: not the [null] that [get] documents and that
    [empty()] and [ofNullable(null)] give. *)
Theorem get_of_ofNullable_undefined w :
  exists o w',
    ofNullable (@undefined T) w = (Return o, w')
    /\ isPresent o w' = (Return false, w')
    /\ get o w' = (Return undefined, w')
    /\ get o w' <> (Return absence_marker, w')
    /\ (exists o0 w0,
          empty w = (Return o0, w0)
          /\ get o0 w0 = (Return absence_marker, w0))
    /\ (exists o1 w1,
          ofNullable (@null T) w = (Return o1, w1)
          /\ get o1 w1 = (Return absence_marker, w1)).
Proof.
  eexists; eexists; split; [reflexivity |].
  repeat split.
  - cbn; discriminate.
  - eexists; eexists; split; reflexivity.
  - eexists; eexists; split; reflexivity.
Qed.

End Factories.

(** [of(5).get()] is [5], and [of(null)] throws. *)
Lemma of_spec_witness :
  of_ (@null nat) Sample.w0 = (Throw InvalidArgument, Sample.w0)
  /\ absent (@undefined nat) = true
  /\ exists o w',
       of_ (val 5) Sample.w0 = (Return o, w')
       /\ allocated Sample.w0 o = false
       /\ allocated w' o = true
       /\ isPresent o w' = (Return true, w')
       /\ get o w' = (Return (val 5), w').
Proof.
  split; [| split].
  - apply (proj1 (of_spec null Sample.w0)); reflexivity.
  - apply (proj1 (proj2 (of_spec undefined Sample.w0))).
    exists InvalidArgument, Sample.w0; reflexivity.
  - apply (proj2 (proj2 (of_spec (val 5) Sample.w0))); reflexivity.
Defined.

(** ** The methods *)

Section Methods.

Context {T S : Type}.
Implicit Types (v other : js T) (o : OptionalValue T) (w : World T S).

(** [get()] hands the field back and touches nothing. *)
Lemma get_value o w : get o w = (Return (value o), w).
Proof. reflexivity. Qed.

(** A present instance holds a proper value, an absent one [null] or
    [undefined]. *)
Lemma present_inv o w :
  isPresent o w = (Return true, w) -> exists x, value o = val x.
Proof.
  rewrite isPresent_absent; intros H.
  destruct (value o) as [| | x]; cbn in H; try discriminate.
  now exists x.
Qed.

Lemma absent_inv o w :
  isPresent o w = (Return false, w) -> absent (value o) = true.
Proof.
  rewrite isPresent_absent; intros H.
  destruct (absent (value o)); [reflexivity | discriminate].
Qed.

(** Each method run on a present, respectively absent, instance. *)
Ltac run_method Hp :=
  match type of Hp with
  | isPresent ?o ?w = _ =>
      match goal with
      | |- context [orElse o _ w] => unfold orElse
      | |- context [orElseGet o _ w] => unfold orElseGet
      | |- context [orElseThrow o _ w] => unfold orElseThrow
      | |- context [ifPresent o _ w] => unfold ifPresent
      end;
      unfold bind; rewrite Hp
  end.

(** C5. On a present instance [orElse(fallback)] is [get()], whatever the
    fallback; on an absent one it is the fallback as given; it returns in
    both cases. *)
Theorem orElse_spec o other w :
  (isPresent o w = (Return true, w) -> orElse o other w = get o w)
  /\ (isPresent o w = (Return false, w) ->
      orElse o other w = (Return other, w))
  /\ returns (orElse o other) w.
Proof.
  repeat split.
  - intros Hp; now run_method Hp.
  - intros Hp; now run_method Hp.
  - unfold returns, orElse, bind.
    rewrite isPresent_absent.
    destruct (negb (absent (value o))); eexists; eexists; reflexivity.
Qed.

(** C6. On a present instance [orElseGet(supplier)] returns the wrapped
    value and leaves the world as it was: the supplier is not called.  On
    an absent instance the supplier is called once, with no argument,
    and its outcome and the state it leaves are those of
    [orElseGet]. *)
Theorem orElseGet_spec o (supplier : Callback S unit (js T)) w :
  (isPresent o w = (Return true, w) ->
     orElseGet o supplier w = (Return (value o), w)
     /\ times_called (cb_id supplier) (calls (snd (orElseGet o supplier w)))
        = times_called (cb_id supplier) (calls w))
  /\ (isPresent o w = (Return false, w) ->
     orElseGet o supplier w
     = (fst (cb_body supplier tt (user w)),
        called_once supplier [] (snd (cb_body supplier tt (user w))) w)
     /\ times_called (cb_id supplier) (calls (snd (orElseGet o supplier w)))
        = 1 + times_called (cb_id supplier) (calls w)).
Proof.
  split; intros Hp; run_method Hp.
  - split; reflexivity.
  - unfold invoke, called_once.
    destruct (cb_body supplier tt (user w)) as [r s'].
    split; [reflexivity |].
    cbn [snd calls fst].
    rewrite times_called_app, times_called_self; lia.
Qed.

(** C7. On a present instance [orElseThrow(factory)] returns the wrapped
    value and leaves the world as it was: the factory is not called.  On
    an absent instance the factory is called once, with no argument, and
    the error it returns is the one thrown. *)
Theorem orElseThrow_spec o (factory : Callback S unit Error) w :
  (isPresent o w = (Return true, w) ->
     orElseThrow o factory w = (Return (value o), w)
     /\ times_called (cb_id factory) (calls (snd (orElseThrow o factory w)))
        = times_called (cb_id factory) (calls w))
  /\ (isPresent o w = (Return false, w) ->
     snd (orElseThrow o factory w)
     = called_once factory [] (snd (cb_body factory tt (user w))) w
     /\ times_called (cb_id factory) (calls (snd (orElseThrow o factory w)))
        = 1 + times_called (cb_id factory) (calls w)
     /\ forall e s',
          cb_body factory tt (user w) = (Return e, s') ->
          orElseThrow o factory w = (Throw e, called_once factory [] s' w)).
Proof.
  split; intros Hp; run_method Hp.
  - split; reflexivity.
  - unfold invoke, called_once, throw.
    destruct (cb_body factory tt (user w)) as [[e | e] s'];
      cbn [snd calls fst];
      (split; [reflexivity |]);
      (split; [rewrite times_called_app, times_called_self; lia |]);
      intros e0 s0 H; inversion H; reflexivity.
Qed.

(** C8. On a present instance [ifPresent(consumer)] calls the consumer
    once, with the wrapped value as its only argument, and returns
    nothing once the consumer has returned.  On an absent instance it
    returns nothing and leaves the world as it was: the consumer is not
    called. *)
Theorem ifPresent_spec o (consumer : Callback S (js T) unit) w :
  (isPresent o w = (Return true, w) ->
     snd (ifPresent o consumer w)
     = called_once consumer [value o]
         (snd (cb_body consumer (value o) (user w))) w
     /\ times_called (cb_id consumer) (calls (snd (ifPresent o consumer w)))
        = 1 + times_called (cb_id consumer) (calls w)
     /\ get o w = (Return (value o), w)
     /\ forall s',
          cb_body consumer (value o) (user w) = (Return tt, s') ->
          ifPresent o consumer w
          = (Return tt, called_once consumer [value o] s' w))
  /\ (isPresent o w = (Return false, w) ->
     ifPresent o consumer w = (Return tt, w)
     /\ times_called (cb_id consumer) (calls (snd (ifPresent o consumer w)))
        = times_called (cb_id consumer) (calls w)).
Proof.
  split; intros Hp; run_method Hp.
  - unfold invoke, called_once, ret.
    destruct (cb_body consumer (value o) (user w)) as [[[] | e] s'];
      cbn [snd calls fst];
      (split; [reflexivity |]);
      (split; [rewrite times_called_app, times_called_self; lia |]);
      (split; [reflexivity |]);
      intros s0 H; inversion H; reflexivity.
  - split; reflexivity.
Qed.

End Methods.

(** ** Where failure can come from, and the two present-making factories *)

Section Whole.

Context {T S : Type}.
Implicit Types (v other : js T) (o : OptionalValue T) (w : World T S).

(** The methods read the field only: two instances with the same field
    run alike. *)
Lemma same_value_same_runs o1 o2 w :
  value o1 = value o2 ->
  get o1 w = get o2 w
  /\ isPresent o1 w = isPresent o2 w
  /\ (forall c, ifPresent o1 c w = ifPresent o2 c w)
  /\ (forall x, orElse o1 x w = orElse o2 x w)
  /\ (forall s, orElseGet o1 s w = orElseGet o2 s w)
  /\ (forall f, orElseThrow o1 f w = orElseThrow o2 f w).
Proof.
  intros E.
  unfold get, isPresent, ifPresent, orElse, orElseGet, orElseThrow,
    isPresent.
  rewrite E.
  repeat split.
Qed.

(** C9. [ofNullable], [empty], [get], [isPresent] and [orElse] return on
    every instance, argument and world; [ifPresent] and [orElseGet]
    return as soon as the callback they are given does.  [of] throws
    exactly on an absent argument, and what it throws is the
    InvalidArgument error.  [orElseThrow] throws exactly on an absent
    instance, and what it throws is the caller's error: the one the
    factory returned (or, should the factory itself fail, the one it
    threw), after one call of the factory. *)
Theorem failure_paths v o other
    (consumer : Callback S (js T) unit)
    (supplier : Callback S unit (js T))
    (factory : Callback S unit Error) w :
  returns (ofNullable v) w
  /\ returns empty w
  /\ returns (get o) w
  /\ returns (isPresent o) w
  /\ returns (orElse o other) w
  /\ (callback_total consumer -> returns (ifPresent o consumer) w)
  /\ (callback_total supplier -> returns (orElseGet o supplier) w)
  /\ (throws (of_ v) w <-> absent v = true)
  /\ (throws (orElseThrow o factory) w <->
      isPresent o w = (Return false, w))
  /\ (forall e w', of_ v w = (Throw e, w') -> e = InvalidArgument /\ w' = w)
  /\ (forall e s',
        isPresent o w = (Return false, w) ->
        cb_body factory tt (user w) = (Return e, s') ->
        orElseThrow o factory w = (Throw e, called_once factory [] s' w))
  /\ (forall e w',
        orElseThrow o factory w = (Throw e, w') ->
        exists s',
          w' = called_once factory [] s' w
          /\ (cb_body factory tt (user w) = (Return e, s')
              \/ cb_body factory tt (user w) = (Throw e, s'))).
Proof.
  unfold returns, throws.
  repeat match goal with |- _ /\ _ => split end.
  - eexists; eexists; reflexivity.
  - eexists; eexists; reflexivity.
  - eexists; eexists; reflexivity.
  - eexists; eexists; reflexivity.
  - unfold orElse, bind; rewrite isPresent_absent.
    destruct (negb (absent (value o))); eexists; eexists; reflexivity.
  - intros Hc.
    unfold ifPresent, bind; rewrite isPresent_absent.
    destruct (negb (absent (value o))).
    + unfold invoke.
      destruct (Hc (value o) (user w)) as ([] & s' & ->).
      eexists; eexists; reflexivity.
    + eexists; eexists; reflexivity.
  - intros Hs.
    unfold orElseGet, bind; rewrite isPresent_absent.
    destruct (negb (absent (value o))).
    + eexists; eexists; reflexivity.
    + unfold invoke.
      destruct (Hs tt (user w)) as (x & s' & ->).
      eexists; eexists; reflexivity.
  - unfold of_; fold (absent v).
    destruct (absent v); split; intros H; try reflexivity.
    + eexists; eexists; reflexivity.
    + destruct H as (e & w' & H); discriminate.
    + discriminate.
  - unfold orElseThrow, bind; rewrite isPresent_absent.
    destruct (negb (absent (value o))); split; intros H.
    + destruct H as (e & w' & H); discriminate.
    + discriminate.
    + reflexivity.
    + unfold invoke, throw.
      destruct (cb_body factory tt (user w)) as [[e | e] s'];
        eexists; eexists; reflexivity.
  - intros e w'; unfold of_; fold (absent v).
    destruct (absent v).
    + unfold throw, InvalidArgument; intros H; injection H as <- <-; auto.
    + discriminate.
  - intros e s' Hp Hbody.
    unfold orElseThrow, bind; rewrite Hp.
    unfold invoke; rewrite Hbody; reflexivity.
  - intros e w'.
    unfold orElseThrow, bind; rewrite isPresent_absent.
    destruct (negb (absent (value o))); [discriminate |].
    unfold invoke, throw, called_once.
    destruct (cb_body factory tt (user w)) as [[e0 | e0] s'];
      intros H; injection H as <- <-; exists s'; auto.
Qed.

(** C10. For a value [v] that is not absent, [of(v)] and [ofNullable(v)]
    both return an instance whose field is [v]; the two are present, and
    every method run on one gives, from any world and with any argument,
    what it gives on the other. *)
Theorem ofNullable_as_of v (w1 w2 : World T S) :
  absent v = false ->
  exists o1 w1' o2 w2',
    of_ v w1 = (Return o1, w1')
    /\ ofNullable v w2 = (Return o2, w2')
    /\ value o1 = v
    /\ value o2 = v
    /\ forall w,
         isPresent o1 w = (Return true, w)
         /\ get o1 w = get o2 w
         /\ isPresent o1 w = isPresent o2 w
         /\ (forall c, ifPresent o1 c w = ifPresent o2 c w)
         /\ (forall x, orElse o1 x w = orElse o2 x w)
         /\ (forall s, orElseGet o1 s w = orElseGet o2 s w)
         /\ (forall f, orElseThrow o1 f w = orElseThrow o2 f w).
Proof.
  intros Hv.
  unfold of_, ofNullable; fold (absent v); rewrite Hv.
  destruct (allocated_constructor v w1) as (o1 & w1' & -> & E1 & _).
  destruct (allocated_constructor v w2) as (o2 & w2' & -> & E2 & _).
  exists o1, w1', o2, w2'.
  repeat match goal with |- _ /\ _ => split end;
    try reflexivity; try assumption.
  intros w; split.
  - now rewrite isPresent_absent, E1, Hv.
  - apply same_value_same_runs; congruence.
Qed.

End Whole.

(** ** The theorems at work on the sample values *)

(** [five.orElse(42)] is [five.get()], and [nothing.orElse(42)] is [42]. *)
Lemma orElse_spec_witness :
  orElse Sample.five (val 42) Sample.w0 = get Sample.five Sample.w0
  /\ orElse Sample.nothing (val 42) Sample.w0 = (Return (val 42), Sample.w0).
Proof.
  split.
  - apply (proj1 (orElse_spec Sample.five (val 42) Sample.w0)); reflexivity.
  - apply (proj1 (proj2 (orElse_spec Sample.nothing (val 42) Sample.w0)));
      reflexivity.
Defined.

(** The supplier stays untouched by [five] and runs once for [undef]. *)
Lemma orElseGet_spec_witness :
  orElseGet Sample.five Sample.supplier42 Sample.w0
  = (Return (val 5), Sample.w0)
  /\ orElseGet Sample.undef Sample.supplier42 Sample.w0
     = (Return (val 42),
        {| next_id := 0; calls := [mkCall 1 []]; user := 1 |}).
Proof.
  split.
  - apply (proj1 (orElseGet_spec Sample.five Sample.supplier42 Sample.w0));
      reflexivity.
  - apply (proj2 (orElseGet_spec Sample.undef Sample.supplier42 Sample.w0));
      reflexivity.
Defined.

(** [nothing.orElseThrow(() => new Error("missing"))] throws that error. *)
Lemma orElseThrow_spec_witness :
  orElseThrow Sample.five Sample.missing Sample.w0
  = (Return (val 5), Sample.w0)
  /\ orElseThrow Sample.nothing Sample.missing Sample.w0
     = (Throw (new_Error "missing"),
        {| next_id := 0; calls := [mkCall 2 []]; user := 0 |}).
Proof.
  split.
  - apply (proj1 (orElseThrow_spec Sample.five Sample.missing Sample.w0));
      reflexivity.
  - apply (proj2 (orElseThrow_spec Sample.nothing Sample.missing Sample.w0));
      reflexivity.
Defined.

(** The consumer gets [5] from [five] and is left alone by [nothing]. *)
Lemma ifPresent_spec_witness :
  ifPresent Sample.five Sample.add_to_state Sample.w0
  = (Return tt, {| next_id := 0; calls := [mkCall 3 [val 5]]; user := 5 |})
  /\ ifPresent Sample.nothing Sample.add_to_state Sample.w0
     = (Return tt, Sample.w0).
Proof.
  split.
  - apply (proj1 (ifPresent_spec Sample.five Sample.add_to_state Sample.w0));
      reflexivity.
  - apply (proj2 (ifPresent_spec Sample.nothing Sample.add_to_state
                    Sample.w0));
      reflexivity.
Defined.

(** With callbacks that return, [ifPresent] and [orElseGet] return;
    [of(undefined)] and [undef.orElseThrow(..)] throw, the latter the
    error its factory made. *)
Lemma failure_paths_witness :
  callback_total Sample.add_to_state
  /\ callback_total Sample.supplier42
  /\ returns (ifPresent Sample.five Sample.add_to_state) Sample.w0
  /\ returns (orElseGet Sample.undef Sample.supplier42) Sample.w0
  /\ throws (of_ (@undefined nat)) Sample.w0
  /\ throws (orElseThrow Sample.undef Sample.missing) Sample.w0
  /\ orElseThrow Sample.undef Sample.missing Sample.w0
     = (Throw (new_Error "missing"),
        {| next_id := 0; calls := [mkCall 2 []]; user := 0 |}).
Proof.
  assert (Hc : callback_total Sample.add_to_state)
    by (intros a s; eexists; eexists; reflexivity).
  assert (Hs : callback_total Sample.supplier42)
    by (intros a s; eexists; eexists; reflexivity).
  pose proof (failure_paths undefined Sample.undef (val 42)
                Sample.add_to_state Sample.supplier42 Sample.missing
                Sample.w0)
    as (_ & _ & _ & _ & _ & _ & Hget & Hof & Hthrow & _ & Hfactory & _).
  pose proof (failure_paths undefined Sample.five (val 42)
                Sample.add_to_state Sample.supplier42 Sample.missing
                Sample.w0)
    as (_ & _ & _ & _ & _ & Hif & _).
  split; [exact Hc |].
  split; [exact Hs |].
  split; [exact (Hif Hc) |].
  split; [exact (Hget Hs) |].
  split; [apply Hof; reflexivity |].
  split; [apply Hthrow; reflexivity |].
  apply (Hfactory (new_Error "missing") 0); reflexivity.
Defined.

(** [of(5)] and, right after it, [ofNullable(5)]: two objects, one
    behaviour. *)
Lemma ofNullable_as_of_witness :
  absent (val 5) = false
  /\ exists o1 w1' o2 w2',
       of_ (val 5) Sample.w0 = (Return o1, w1')
       /\ ofNullable (val 5) w1' = (Return o2, w2')
       /\ oid o1 <> oid o2
       /\ forall w : World nat nat,
            get o1 w = get o2 w
            /\ forall x, orElse o1 x w = orElse o2 x w.
Proof.
  split; [reflexivity |].
  destruct (ofNullable_as_of (val 5) Sample.w0
              (mkWorld 1 [] 0) eq_refl)
    as (o1 & w1' & o2 & w2' & H1 & H2 & _ & _ & Hall).
  exists o1, w1', o2, w2'.
  cbn in H1, H2.
  injection H1 as <- <-.
  injection H2 as <- <-.
  repeat split; try discriminate; apply Hall.
Defined.

(** ** Further properties of the class *)

Section Further.

Context {T S : Type}.
Implicit Types (v other : js T) (o : OptionalValue T) (w : World T S).

Notation "x <- m ;; k" := (bind m (fun x => k))
  (at level 61, m at next level, right associativity).

(** X1. The factories call nothing and leave the caller's state alone;
    each allocates exactly one object when it returns, and [of] allocates
    none when it throws. *)
Theorem factories_frame v w :
  (calls (snd (of_ v w)) = calls w
   /\ user (snd (of_ v w)) = user w
   /\ next_id (snd (of_ v w))
      = if absent v then next_id w else Datatypes.S (next_id w))
  /\ (calls (snd (ofNullable v w)) = calls w
      /\ user (snd (ofNullable v w)) = user w
      /\ next_id (snd (ofNullable v w)) = Datatypes.S (next_id w))
  /\ (calls (snd (@empty T S w)) = calls w
      /\ user (snd (@empty T S w)) = user w
      /\ next_id (snd (@empty T S w)) = Datatypes.S (next_id w)).
Proof.
  split; [| split; repeat split].
  unfold of_; fold (absent v).
  destruct (absent v); repeat split.
Qed.

(** X2. An instance a factory returns is not any object that existed
    before the call, and the objects that existed still do afterwards. *)
Theorem factories_fresh_identity v w (m : M T S (OptionalValue T))
    o o' w' :
  m = of_ v \/ m = ofNullable v \/ m = empty ->
  allocated w o = true ->
  m w = (Return o', w') ->
  oid o' <> oid o
  /\ allocated w' o = true
  /\ allocated w' o' = true.
Proof.
  intros Hm Ho Hrun.
  assert (Hk : exists u, constructor u w = (Return o', w')).
  { destruct Hm as [-> | [-> | ->]].
    - unfold of_ in Hrun.
      destruct (is_null v || is_undefined v); [discriminate |].
      now exists v.
    - now exists v.
    - now exists null. }
  destruct Hk as (u & Hk).
  unfold constructor in Hk; injection Hk as <- <-.
  unfold allocated in *; cbn [oid next_id].
  apply Nat.ltb_lt in Ho.
  repeat split.
  - lia.
  - apply Nat.ltb_lt; lia.
  - apply Nat.ltb_lt; lia.
Qed.

(** X3. [get], [isPresent] and [orElse] leave the world as it is.
    [ifPresent], [orElseGet] and [orElseThrow] allocate nothing and add
    at most one call to those recorded, after the ones already there. *)
Theorem methods_frame o other
    (consumer : Callback S (js T) unit)
    (supplier : Callback S unit (js T))
    (factory : Callback S unit Error) w :
  snd (get o w) = w
  /\ snd (isPresent o w) = w
  /\ snd (orElse o other w) = w
  /\ (forall w',
        w' = snd (ifPresent o consumer w)
        \/ w' = snd (orElseGet o supplier w)
        \/ w' = snd (orElseThrow o factory w) ->
        next_id w' = next_id w
        /\ exists l, calls w' = calls w ++ l /\ length l <= 1).
Proof.
  repeat match goal with |- _ /\ _ => split end; try reflexivity.
  - unfold orElse, bind; rewrite isPresent_absent.
    now destruct (negb (absent (value o))).
  - intros w' [-> | [-> | ->]];
      unfold ifPresent, orElseGet, orElseThrow, bind;
      rewrite isPresent_absent;
      destruct (negb (absent (value o))); unfold invoke, ret, throw.
    + destruct (cb_body consumer (value o) (user w)) as [[[] | e] s'];
        (split; [reflexivity |]); eexists; split;
        [reflexivity | cbn; lia | reflexivity | cbn; lia].
    + split; [reflexivity |]; exists []; rewrite app_nil_r; cbn; auto.
    + split; [reflexivity |]; exists []; rewrite app_nil_r; cbn; auto.
    + destruct (cb_body supplier tt (user w)) as [r s'];
        (split; [reflexivity |]); eexists; split;
        [reflexivity | cbn; lia].
    + split; [reflexivity |]; exists []; rewrite app_nil_r; cbn; auto.
    + destruct (cb_body factory tt (user w)) as [[e | e] s'];
        (split; [reflexivity |]); eexists; split;
        [reflexivity | cbn; lia | reflexivity | cbn; lia].
Qed.

(** X4. What [orElseThrow] returns is never [null] or [undefined]: when
    it returns, it returns the wrapped value, which is a proper one, and
    the world is untouched. *)
Theorem orElseThrow_result_not_absent o (factory : Callback S unit Error)
    w x w' :
  orElseThrow o factory w = (Return x, w') ->
  absent x = false /\ x = value o /\ w' = w.
Proof.
  unfold orElseThrow, bind; rewrite isPresent_absent.
  destruct (absent (value o)) eqn:Ha; cbn [negb].
  - unfold invoke, throw.
    destruct (cb_body factory tt (user w)) as [[e | e] s']; discriminate.
  - unfold ret; intros H; injection H as <- <-; auto.
Qed.

(** X5. With a fallback that is not absent, [orElse] returns a proper
    value on every instance. *)
Theorem orElse_result_not_absent o other w :
  absent other = false ->
  exists x, orElse o other w = (Return (val x), w).
Proof.
  intros Hother.
  unfold orElse, bind; rewrite isPresent_absent.
  destruct (value o) as [| | y] eqn:E; cbn.
  - destruct other as [| | x]; try discriminate; now exists x.
  - destruct other as [| | x]; try discriminate; now exists x.
  - now exists y.
Qed.

(** X6. [orElse(null)] gives what [get] documents: the wrapped value on a
    present instance and [null] on every absent one, also on the one that
    holds [undefined]. *)
Theorem orElse_null_normalises o w :
  orElse o null w
  = (Return (if absent (value o) then absence_marker else value o), w)
  /\ fst (orElse o null w) <> Return undefined.
Proof.
  unfold orElse, bind; rewrite isPresent_absent.
  destruct (value o) as [| | y]; cbn; split;
    solve [reflexivity | discriminate].
Qed.

(** X7. The consumer given to [ifPresent] is never run on [null] or
    [undefined]: two consumers of one name that agree on proper values
    make [ifPresent] run alike on every instance. *)
Theorem ifPresent_consumer_sees_values_only o
    (c1 c2 : Callback S (js T) unit) w :
  cb_id c1 = cb_id c2 ->
  (forall x s, cb_body c1 (val x) s = cb_body c2 (val x) s) ->
  ifPresent o c1 w = ifPresent o c2 w.
Proof.
  intros Hid Hbody.
  unfold ifPresent, bind; rewrite isPresent_absent.
  destruct (value o) as [| | y]; cbn [absent is_null is_undefined orb negb];
    try reflexivity.
  unfold invoke; now rewrite Hid, Hbody.
Qed.

(** X8. Wrapping again what [get] gave: [ofNullable(o.get())] returns an
    instance with the field of [o], on which every method runs as on [o];
    [of(o.get())] returns exactly when [o] is present. *)
Theorem rewrap_get o w :
  (exists o' w',
     (x <- get o ;; ofNullable x) w = (Return o', w')
     /\ value o' = value o
     /\ forall w1 : World T S,
          get o' w1 = get o w1
          /\ isPresent o' w1 = isPresent o w1
          /\ (forall c, ifPresent o' c w1 = ifPresent o c w1)
          /\ (forall x, orElse o' x w1 = orElse o x w1)
          /\ (forall s, orElseGet o' s w1 = orElseGet o s w1)
          /\ (forall f, orElseThrow o' f w1 = orElseThrow o f w1))
  /\ (returns (x <- get o ;; of_ x) w <-> isPresent o w = (Return true, w)).
Proof.
  split.
  - unfold bind, get, ret, ofNullable.
    destruct (allocated_constructor (value o) w) as (o' & w' & -> & E & _).
    exists o', w'; repeat split; try assumption;
      now apply same_value_same_runs.
  - unfold returns, bind, get, ret, of_; fold (absent (value o)).
    rewrite isPresent_absent.
    destruct (absent (value o)); cbn [negb]; split; intros H.
    + destruct H as (a & w' & H); discriminate.
    + discriminate.
    + reflexivity.
    + eexists; eexists; reflexivity.
Qed.

(** X9. [ofNullable(v).orElse(d)] is [v] when [v] is not absent and [d]
    otherwise; nothing is called on the way. *)
Theorem ofNullable_orElse_coalesce v other w :
  (o <- ofNullable v ;; orElse o other) w
  = (Return (if absent v then other else v), snd (ofNullable v w)).
Proof.
  unfold bind, ofNullable, constructor, orElse, bind.
  rewrite isPresent_absent; cbn [value snd].
  now destruct (absent v).
Qed.

(** X10. An error thrown inside a callback goes through unchanged, with
    the call recorded and the state the callback left: from the consumer
    through [ifPresent] on a present instance, from the supplier through
    [orElseGet] and from the factory through [orElseThrow] on an absent
    one. *)
Theorem callback_throw_propagates o
    (consumer : Callback S (js T) unit)
    (supplier : Callback S unit (js T))
    (factory : Callback S unit Error) w e s' :
  (isPresent o w = (Return true, w) ->
   cb_body consumer (value o) (user w) = (Throw e, s') ->
   ifPresent o consumer w = (Throw e, called_once consumer [value o] s' w))
  /\ (isPresent o w = (Return false, w) ->
      cb_body supplier tt (user w) = (Throw e, s') ->
      orElseGet o supplier w = (Throw e, called_once supplier [] s' w))
  /\ (isPresent o w = (Return false, w) ->
      cb_body factory tt (user w) = (Throw e, s') ->
      orElseThrow o factory w = (Throw e, called_once factory [] s' w)).
Proof.
  repeat split; intros Hp Hbody;
    unfold ifPresent, orElseGet, orElseThrow, bind; rewrite Hp;
    unfold invoke; rewrite Hbody; reflexivity.
Qed.

(** X11. [orElse(x)] returns what [orElseGet] returns with a supplier
    that returns [x]. *)
Theorem orElse_as_orElseGet o (supplier : Callback S unit (js T)) w x s' :
  cb_body supplier tt (user w) = (Return x, s') ->
  fst (orElseGet o supplier w) = fst (orElse o x w).
Proof.
  intros Hbody.
  unfold orElseGet, orElse, bind; rewrite isPresent_absent.
  destruct (negb (absent (value o))); [reflexivity |].
  unfold invoke; now rewrite Hbody.
Qed.

(** X12. Two absent instances, whether they hold [null] or [undefined],
    cannot be told apart by [isPresent], [ifPresent], [orElse],
    [orElseGet] or [orElseThrow]; [get] tells them apart exactly when
    their fields differ. *)
Theorem absent_instances_alike o1 o2 w :
  absent (value o1) = true ->
  absent (value o2) = true ->
  isPresent o1 w = isPresent o2 w
  /\ (forall c, ifPresent o1 c w = ifPresent o2 c w)
  /\ (forall x, orElse o1 x w = orElse o2 x w)
  /\ (forall s, orElseGet o1 s w = orElseGet o2 s w)
  /\ (forall f, orElseThrow o1 f w = orElseThrow o2 f w)
  /\ (get o1 w = get o2 w <-> value o1 = value o2).
Proof.
  intros H1 H2.
  unfold ifPresent, orElse, orElseGet, orElseThrow, bind.
  rewrite !isPresent_absent, H1, H2.
  repeat split.
  - unfold get, ret; intros H; now injection H.
  - intros E; unfold get; now rewrite E.
Qed.

(** X13. Nothing is remembered between calls: [orElseGet] run twice on an
    absent instance, with a supplier that returns, calls the supplier
    twice. *)
Theorem orElseGet_twice_calls_twice o (supplier : Callback S unit (js T)) w :
  isPresent o w = (Return false, w) ->
  callback_total supplier ->
  times_called (cb_id supplier)
    (calls (snd ((_ <- orElseGet o supplier ;; orElseGet o supplier) w)))
  = 2 + times_called (cb_id supplier) (calls w).
Proof.
  intros Hp Htotal.
  apply absent_inv in Hp.
  assert (Hrun : forall w0 : World T S,
             orElseGet o supplier w0
             = (fst (cb_body supplier tt (user w0)),
                called_once supplier []
                  (snd (cb_body supplier tt (user w0))) w0)).
  { intros w0; unfold orElseGet, bind.
    rewrite isPresent_absent, Hp; cbn [negb].
    unfold invoke, called_once.
    now destruct (cb_body supplier tt (user w0)). }
  unfold bind; rewrite Hrun.
  destruct (Htotal tt (user w)) as (x1 & s1 & ->); cbn [fst snd].
  rewrite Hrun; cbn [snd called_once calls].
  rewrite !times_called_app, !times_called_self; lia.
Qed.

End Further.

(** ** The further properties at work on the sample values *)

(** [ofNullable(7)] in a world where [five] exists gives another object. *)
Lemma factories_fresh_identity_witness :
  allocated Sample.w1 Sample.five = true
  /\ ofNullable (val 7) Sample.w1
     = (Return {| oid := 1; value := val 7 |},
        {| next_id := 2; calls := [mkCall 3 [val 5]]; user := 5 |})
  /\ 1 <> oid Sample.five
  /\ allocated {| next_id := 2; calls := [mkCall 3 [val 5]]; user := 5 |}
       Sample.five = true.
Proof.
  split; [reflexivity |].
  split; [reflexivity |].
  pose proof (factories_fresh_identity (val 7) Sample.w1
                (ofNullable (val 7)) Sample.five
                {| oid := 1; value := val 7 |}
                {| next_id := 2; calls := [mkCall 3 [val 5]]; user := 5 |}
                (or_intror (or_introl eq_refl)) eq_refl eq_refl)
    as (Hne & Hold & _).
  split; [exact Hne | exact Hold].
Defined.

(** [five.ifPresent(..)] allocates nothing and records one call. *)
Lemma methods_frame_witness :
  next_id (snd (ifPresent Sample.five Sample.add_to_state Sample.w0)) = 0
  /\ exists l,
       calls (snd (ifPresent Sample.five Sample.add_to_state Sample.w0))
       = [] ++ l
       /\ length l <= 1.
Proof.
  apply (proj2 (proj2 (proj2
           (methods_frame Sample.five (val 42) Sample.add_to_state
              Sample.supplier42 Sample.missing Sample.w0)))).
  left; reflexivity.
Defined.

(** [five.orElseThrow(..)] returns [5]. *)
Lemma orElseThrow_result_not_absent_witness :
  orElseThrow Sample.five Sample.missing Sample.w0
  = (Return (val 5), Sample.w0)
  /\ absent (val 5) = false.
Proof.
  split; [reflexivity |].
  apply (orElseThrow_result_not_absent Sample.five Sample.missing
           Sample.w0 (val 5) Sample.w0 eq_refl).
Defined.

(** [undef.orElse(42)] is a proper value. *)
Lemma orElse_result_not_absent_witness :
  absent (val 42) = false
  /\ exists x, orElse Sample.undef (val 42) Sample.w0
               = (Return (val x), Sample.w0).
Proof.
  split; [reflexivity |].
  apply (orElse_result_not_absent Sample.undef (val 42) Sample.w0);
    reflexivity.
Defined.

(** A consumer that would throw on [null] is as good as one that would
    not. *)
Lemma ifPresent_consumer_sees_values_only_witness :
  cb_id Sample.add_to_state = cb_id Sample.add_or_throw
  /\ ifPresent Sample.nothing Sample.add_to_state Sample.w0
     = ifPresent Sample.nothing Sample.add_or_throw Sample.w0
  /\ ifPresent Sample.five Sample.add_to_state Sample.w0
     = ifPresent Sample.five Sample.add_or_throw Sample.w0.
Proof.
  split; [reflexivity |].
  split.
  - apply (ifPresent_consumer_sees_values_only Sample.nothing
             Sample.add_to_state Sample.add_or_throw Sample.w0);
      [reflexivity | intros x s; reflexivity].
  - apply (ifPresent_consumer_sees_values_only Sample.five
             Sample.add_to_state Sample.add_or_throw Sample.w0);
      [reflexivity | intros x s; reflexivity].
Defined.

(** Re-wrapping [undef]: [of(undef.get())] throws, [of(five.get())]
    returns. *)
Lemma rewrap_get_witness :
  returns (bind (get Sample.five) of_) Sample.w0
  /\ isPresent Sample.undef Sample.w0 <> (Return true, Sample.w0).
Proof.
  split.
  - apply (proj2 (rewrap_get Sample.five Sample.w0)); reflexivity.
  - intros H; discriminate H.
Defined.

(** The three callbacks that throw, and what comes out. *)
Lemma callback_throw_propagates_witness :
  ifPresent Sample.five Sample.reject Sample.w0
  = (Throw (new_Error "rejected"),
     {| next_id := 0; calls := [mkCall 6 [val 5]]; user := 5 |})
  /\ orElseGet Sample.nothing Sample.no_fallback Sample.w0
     = (Throw (new_Error "no fallback"),
        {| next_id := 0; calls := [mkCall 5 []]; user := 1 |})
  /\ orElseThrow Sample.undef Sample.broken_factory Sample.w0
     = (Throw (new_Error "factory broke"),
        {| next_id := 0; calls := [mkCall 7 []]; user := 0 |}).
Proof.
  split; [| split].
  - apply (proj1 (callback_throw_propagates Sample.five Sample.reject
                    Sample.no_fallback Sample.broken_factory Sample.w0
                    (new_Error "rejected") 5));
      reflexivity.
  - apply (proj1 (proj2 (callback_throw_propagates Sample.nothing
                    Sample.reject Sample.no_fallback Sample.broken_factory
                    Sample.w0 (new_Error "no fallback") 1)));
      reflexivity.
  - apply (proj2 (proj2 (callback_throw_propagates Sample.undef
                    Sample.reject Sample.no_fallback Sample.broken_factory
                    Sample.w0 (new_Error "factory broke") 0)));
      reflexivity.
Defined.

(** [nothing.orElseGet(() => 7)] returns what [nothing.orElse(7)] does. *)
Lemma orElse_as_orElseGet_witness :
  cb_body Sample.seven tt (user Sample.w0) = (Return (val 7), 0)
  /\ fst (orElseGet Sample.nothing Sample.seven Sample.w0)
     = fst (orElse Sample.nothing (val 7) Sample.w0).
Proof.
  split; [reflexivity |].
  apply (orElse_as_orElseGet Sample.nothing Sample.seven Sample.w0
           (val 7) 0 eq_refl).
Defined.

(** [nothing] and [undef] differ under [get] only. *)
Lemma absent_instances_alike_witness :
  absent (value Sample.nothing) = true
  /\ absent (value Sample.undef) = true
  /\ (forall x, orElse Sample.nothing x Sample.w0
                = orElse Sample.undef x Sample.w0)
  /\ get Sample.nothing Sample.w0 <> get Sample.undef Sample.w0.
Proof.
  pose proof (absent_instances_alike Sample.nothing Sample.undef Sample.w0
                eq_refl eq_refl)
    as (_ & _ & Horelse & _ & _ & Hget).
  repeat split; try assumption.
  intros H; apply Hget in H; discriminate H.
Defined.

(** Two runs of [nothing.orElseGet(..)], two calls of the supplier. *)
Lemma orElseGet_twice_calls_twice_witness :
  isPresent Sample.nothing Sample.w0 = (Return false, Sample.w0)
  /\ times_called 1
       (calls (snd (bind (orElseGet Sample.nothing Sample.supplier42)
                      (fun _ => orElseGet Sample.nothing Sample.supplier42)
                      Sample.w0)))
     = 2.
Proof.
  split; [reflexivity |].
  apply (orElseGet_twice_calls_twice Sample.nothing Sample.supplier42
           Sample.w0 eq_refl).
  intros a s; eexists; eexists; reflexivity.
Defined.
